(** * ai-chatbot: the model registry, the response dispatcher and the
      transport boundary

    A shallow embedding of [src/models/ChatModel.ts],
    [src/controllers/ChatControllers.ts], [src/app/api/chat/route.ts] and of
    the default-model selection of [src/components/AIChatbot.tsx].

    TypeScript types are erased at run time and the route hands the parsed
    JSON body to the dispatcher unchecked, so the dispatcher is embedded over
    run-time values ([JsValue]); the typed view ([Message], [AiModel]) is
    injected into it.  The two upstream calls ([fetch] and the OpenAI
    client's [createChatCompletion]) are the only effects; a program is a
    tree of such calls and [run] interprets it against an upstream, recording
    the calls that were issued. *)

From Stdlib Require Import String Ascii List Bool ZArith Lia.
From Stdlib Require Import DecimalString.
Import ListNotations.
Open Scope string_scope.

Set Implicit Arguments.

(** ** Run-time values *)

(** The values [JSON.parse] produces, plus [undefined] for a property that
    is not there.  An object is the list of its own properties in insertion
    order.  Numbers are carried as integers: nothing in this program
    computes with a number. *)
#[warnings="-register-all"] Inductive JsValue : Type :=
| JUndefined
| JNull
| JBool (b : bool)
| JNum (n : Z)
| JStr (s : string)
| JArr (elems : list JsValue)
| JObj (props : list (string * JsValue)).

(** What a rejected promise or a [throw] carries.  [TypeError] and
    [ReferenceError] are raised by the language itself, [SyntaxError] by
    [req.json()] on a body that is not JSON, and [NetworkFailure] stands for
    whatever the transport rejects with when no response arrives. *)
Inductive JsError : Type :=
| TypeError
| ReferenceError
| SyntaxError
| NetworkFailure (reason : string).

(** The settled state of a promise (or the completion of an expression). *)
Inductive Outcome (A : Type) : Type :=
| Fulfilled (a : A)
| Rejected (e : JsError).
Arguments Rejected {A} e.

Definition outcome_bind {A B} (o : Outcome A) (k : A -> Outcome B) : Outcome B :=
  match o with
  | Fulfilled a => k a
  | Rejected e => Rejected e
  end.

Definition outcome_map {A B} (f : A -> B) (o : Outcome A) : Outcome B :=
  outcome_bind o (fun a => Fulfilled (f a)).

Notation "x <-! e ;; k" := (outcome_bind e (fun x => k))
  (at level 61, e at next level, right associativity).

Fixpoint outcome_mapM {A B} (f : A -> Outcome B) (l : list A) : Outcome (list B) :=
  match l with
  | [] => Fulfilled []
  | x :: rest =>
      y <-! f x ;;
      ys <-! outcome_mapM f rest ;;
      Fulfilled (y :: ys)
  end.

Definition LF : string := String (ascii_of_nat 10) "".

(** [s.startsWith(p)] on strings. *)
Definition startsWith (s p : string) : bool := String.prefix p s.

Fixpoint lookup_prop (key : string) (props : list (string * JsValue)) : JsValue :=
  match props with
  | [] => JUndefined
  | (k, v) :: rest => if String.eqb k key then v else lookup_prop key rest
  end.

(** [v.key] for a key that no built-in prototype defines ([messages],
    [model], [role], [content], [id]): reading a property of [undefined] or
    [null] throws, an object answers with its own property, and every other
    value answers [undefined]. *)
Definition js_get (v : JsValue) (key : string) : Outcome JsValue :=
  match v with
  | JUndefined | JNull => Rejected TypeError
  | JObj props => Fulfilled (lookup_prop key props)
  | _ => Fulfilled JUndefined
  end.

(** [v.startsWith(p)]: only a string has the method.  On [undefined] and
    [null] the property read throws; on any other parsed value the property
    is missing or is not callable, and the call throws. *)
Definition js_startsWith (v : JsValue) (p : string) : Outcome bool :=
  match v with
  | JStr s => Fulfilled (startsWith s p)
  | _ => Rejected TypeError
  end.

(** [v.map(f)]: only an array has the method (same reasoning). *)
Definition js_map {B} (f : JsValue -> Outcome B) (v : JsValue) : Outcome (list B) :=
  match v with
  | JArr elems => outcome_mapM f elems
  | _ => Rejected TypeError
  end.

(** Truthiness, and [a || b]. *)
Definition js_truthy (v : JsValue) : bool :=
  match v with
  | JUndefined | JNull => false
  | JBool b => b
  | JNum n => negb (Z.eqb n 0)
  | JStr s => negb (String.eqb s "")
  | JArr _ | JObj _ => true
  end.

Definition js_or (a b : JsValue) : JsValue := if js_truthy a then a else b.

(** [ToString], as a template substitution applies it. *)
Fixpoint js_toString (v : JsValue) : string :=
  match v with
  | JUndefined => "undefined"
  | JNull => "null"
  | JBool true => "true"
  | JBool false => "false"
  | JNum n => NilZero.string_of_int (Z.to_int n)
  | JStr s => s
  | JArr elems =>
      String.concat ","
        (map (fun e => match e with
                       | JUndefined | JNull => ""
                       | _ => js_toString e
                       end) elems)
  | JObj _ => "[object Object]"
  end.

(** ** Template literals *)

(** A template literal is lexed into literal chunks and substitutions.  A
    backslash escapes the character after it, so [\$] is a plain dollar sign
    and does not open a substitution; [\n] is a line feed. *)
Inductive TemplatePart : Type :=
| Chars (s : string)
| Subst (expr : string).

Inductive LexMode : Type :=
| InChars
| AfterBackslash
| AfterDollar
| InSubst (expr : string).

Definition snoc (s : string) (c : ascii) : string := s ++ String c "".

Definition cooked (c : ascii) : ascii :=
  if Ascii.eqb c "n" then ascii_of_nat 10 else c.

Fixpoint lex_template (mode : LexMode) (chunk : string) (raw : string)
  : list TemplatePart :=
  match raw with
  | "" =>
      match mode with
      | AfterDollar => [Chars (snoc chunk "$")]
      | _ => [Chars chunk]
      end
  | String c rest =>
      match mode with
      | InChars =>
          if Ascii.eqb c "\" then lex_template AfterBackslash chunk rest
          else if Ascii.eqb c "$" then lex_template AfterDollar chunk rest
          else lex_template InChars (snoc chunk c) rest
      | AfterBackslash =>
          lex_template InChars (snoc chunk (cooked c)) rest
      | AfterDollar =>
          if Ascii.eqb c "{" then Chars chunk :: lex_template (InSubst "") "" rest
          else if Ascii.eqb c "\" then lex_template AfterBackslash (snoc chunk "$") rest
          else if Ascii.eqb c "$" then lex_template AfterDollar (snoc chunk "$") rest
          else lex_template InChars (snoc (snoc chunk "$") c) rest
      | InSubst expr =>
          if Ascii.eqb c "}" then Subst expr :: lex_template InChars "" rest
          else lex_template (InSubst (snoc expr c)) chunk rest
      end
  end.

Definition template (raw : string) : list TemplatePart :=
  lex_template InChars "" raw.

Fixpoint strip_prefix (p s : string) : option string :=
  match p, s with
  | "", _ => Some s
  | String a p', String b s' => if Ascii.eqb a b then strip_prefix p' s' else None
  | _, _ => None
  end.

(** The substitutions of this program are property reads [x.field] of the
    arrow function's parameter [x]; any other identifier is unbound. *)
Definition eval_part (param : string) (arg : JsValue) (p : TemplatePart)
  : Outcome string :=
  match p with
  | Chars s => Fulfilled s
  | Subst expr =>
      match strip_prefix (param ++ ".") expr with
      | Some field => v <-! js_get arg field ;; Fulfilled (js_toString v)
      | None => Rejected ReferenceError
      end
  end.

Definition eval_template (param : string) (arg : JsValue)
  (parts : list TemplatePart) : Outcome string :=
  chunks <-! outcome_mapM (eval_part param arg) parts ;;
  Fulfilled (String.concat "" chunks).

(** ** The typed view: [Message] and [AiModel] *)

Inductive Role : Type := user | assistant.

Definition role_string (r : Role) : string :=
  match r with
  | user => "user"
  | assistant => "assistant"
  end.

Record Message : Type := { role : Role; content : string }.

Record AiModel : Type := { id : string; name : string }.

(** A well-typed message as the object the request body carries. *)
Definition js_of_message (m : Message) : JsValue :=
  JObj [("role", JStr (role_string (role m))); ("content", JStr (content m))].

Definition js_of_conversation (ms : list Message) : JsValue :=
  JArr (map js_of_message ms).

(** ** Upstream calls *)

Definition ReadableStream : Type := list string.

(** What an upstream call resolves with: the status line and the body
    ([null] when the response has none). *)
Record Response : Type := {
  status : Z;
  body : option ReadableStream
}.

Definition ok (r : Response) : bool := (200 <=? status r)%Z && (status r <=? 299)%Z.

(** The object handed to [JSON.stringify] in the provider-B branch. *)
Record CompleteBody : Type := {
  prompt : string;
  cb_model : JsValue;
  max_tokens_to_sample : Z;
  cb_stream : bool
}.

Record FetchInit : Type := {
  method : string;
  headers : list (string * string);
  fetch_body : CompleteBody
}.

(** [{content, role}], the object literal built for each message in the
    provider-A branch. *)
Record WireMessage : Type := {
  wm_content : JsValue;
  wm_role : JsValue
}.

Record ChatCompletionRequest : Type := {
  cc_model : JsValue;
  cc_stream : bool;
  cc_messages : list WireMessage
}.

(** [new Configuration({apiKey})]: the key is [undefined] when the
    environment variable is not set. *)
Record Configuration : Type := { apiKey : option string }.

Inductive UpstreamCall : Type :=
| Fetch (url : string) (init : FetchInit)
| CreateChatCompletion (config : Configuration) (request : ChatCompletionRequest).

Inductive Provider : Type := OpenAI | Anthropic.

Definition provider_of (c : UpstreamCall) : Provider :=
  match c with
  | Fetch _ _ => Anthropic
  | CreateChatCompletion _ _ => OpenAI
  end.

(** The model id an upstream call carries. *)
Definition model_of (c : UpstreamCall) : JsValue :=
  match c with
  | Fetch _ init => cb_model (fetch_body init)
  | CreateChatCompletion _ request => cc_model request
  end.

Fixpoint header (key : string) (hs : list (string * string)) : option string :=
  match hs with
  | [] => None
  | (k, v) :: rest => if String.eqb k key then Some v else header key rest
  end.

(** The credential an upstream call carries. *)
Definition credential_of (c : UpstreamCall) : option string :=
  match c with
  | Fetch _ init => header "X-API-Key" (headers init)
  | CreateChatCompletion config _ => apiKey config
  end.

(** An upstream answers a call with a response (of any status) or rejects
    when no response can be had. *)
Definition Upstream : Type := UpstreamCall -> Outcome Response.

(** ** Programs *)

(** An [async] function body: it returns, throws, or awaits an upstream
    call and continues with the response. *)
Inductive Prog (A : Type) : Type :=
| Ret (a : A)
| Throw (e : JsError)
| Await (c : UpstreamCall) (k : Response -> Prog A).
Arguments Throw {A} e.
Arguments Await {A} c k.

Fixpoint bind {A B} (p : Prog A) (f : A -> Prog B) : Prog B :=
  match p with
  | Ret a => f a
  | Throw e => Throw e
  | Await c k => Await c (fun r => bind (k r) f)
  end.

Notation "x <- e ;; k" := (bind e (fun x => k))
  (at level 61, e at next level, right associativity).

Definition lift {A} (o : Outcome A) : Prog A :=
  match o with
  | Fulfilled a => Ret a
  | Rejected e => Throw e
  end.

(** Running a program against an upstream: the calls issued, in order, and
    how the returned promise settles. *)
Fixpoint run {A} (up : Upstream) (p : Prog A) : list UpstreamCall * Outcome A :=
  match p with
  | Ret a => ([], Fulfilled a)
  | Throw e => ([], Rejected e)
  | Await c k =>
      match up c with
      | Fulfilled r => let (calls, o) := run up (k r) in (c :: calls, o)
      | Rejected e => ([c], Rejected e)
      end
  end.

Definition calls {A} (up : Upstream) (p : Prog A) : list UpstreamCall := fst (run up p).
Definition result {A} (up : Upstream) (p : Prog A) : Outcome A := snd (run up p).

(** ** Process configuration *)

(** [process.env]. *)
Definition Env : Type := string -> option string.

(** [process.env.KEY || ''] *)
Definition env_or_empty (env : Env) (key : string) : string :=
  match env key with
  | Some s => s
  | None => ""
  end.

(** ** [src/models/ChatModel.ts] *)

Module ChatModel.

Record t : Type := {
  openai : Configuration;
  anthropicApiKey : string
}.

(** The constructor reads both credentials from the environment; the
    provider-A key is read from [OPEN_API_KEY]. *)
Definition constructor (env : Env) : t :=
  {| openai := {| apiKey := env "OPEN_API_KEY" |};
     anthropicApiKey := env_or_empty env "ANTHROPIC_API_KEY" |}.

(** The arrow function [(m) => `...`] of the provider-B branch, with the
    template literal as it stands in the source. *)
Definition prompt_line (m : JsValue) : Outcome string :=
  eval_template "m" m (template "\${m.role}: \${m.content}").

(** [messages.map(...).join('\n') + '\nassistant:'] *)
Definition prompt_of (messages : JsValue) : Outcome string :=
  lines <-! js_map prompt_line messages ;;
  Fulfilled (String.concat LF lines ++ LF ++ "assistant:").

(** The arrow function of the provider-A branch:
    [(messages) => ({content: messages.content, role: messages.role})]. *)
Definition wire_message (messages : JsValue) : Outcome WireMessage :=
  c <-! js_get messages "content" ;;
  r <-! js_get messages "role" ;;
  Fulfilled {| wm_content := c; wm_role := r |}.

Definition await (c : UpstreamCall) : Prog Response := Await c (fun r => Ret r).

Definition generateResponse (self : t) (messages model : JsValue)
  : Prog (option ReadableStream) :=
  is_claude <- lift (js_startsWith model "claude") ;;
  if is_claude then
    prompt <- lift (prompt_of messages) ;;
    response <- await
      (Fetch "https://api.anthropic.com/v1/complete"
         {| method := "POST";
            headers := [("Content-Type", "application/json");
                        ("X-API-Key", anthropicApiKey self)];
            fetch_body := {| prompt := prompt;
                             cb_model := model;
                             max_tokens_to_sample := 1000;
                             cb_stream := true |} |}) ;;
    Ret (body response)
  else
    wire <- lift (js_map wire_message messages) ;;
    response <- await
      (CreateChatCompletion (openai self)
         {| cc_model := js_or model (JStr "gpt-3.5-turbo");
            cc_stream := true;
            cc_messages := wire |}) ;;
    Ret (body response).

Definition getAvailableModels (self : t) : list AiModel :=
  [ {| id := "gpt-3.5-turbo"; name := "GPT 3.5 Turbo" |};
    {| id := "gpt-4"; name := "GPT-4" |};
    {| id := "claude-v1"; name := "Claude v1" |};
    {| id := "claude-instant-v1"; name := "Claude Instant v1" |};
    {| id := "text-davinci-003"; name := "Davinci" |};
    {| id := "text-curie-001"; name := "Curie" |} ].

End ChatModel.

(** ** [src/controllers/ChatControllers.ts] *)

Module ChatController.

Record t : Type := { model : ChatModel.t }.

Definition constructor (env : Env) : t :=
  {| model := ChatModel.constructor env |}.

Definition generateResponse (self : t) (messages selectedModel : JsValue)
  : Prog (option ReadableStream) :=
  ChatModel.generateResponse (model self) messages selectedModel.

Definition getAvailableModels (self : t) : list AiModel :=
  ChatModel.getAvailableModels (model self).

End ChatController.

(** ** [src/app/api/chat/route.ts] *)

(** A request, seen through the one thing the handler does with it:
    [req.json()], which rejects on a body that is not JSON. *)
Record Request : Type := { json : Outcome JsValue }.

Definition parsed (payload : JsValue) : Request := {| json := Fulfilled payload |}.

Record StreamingTextResponse : Type := { stream : option ReadableStream }.

Definition POST (env : Env) (req : Request) : Prog StreamingTextResponse :=
  payload <- lift (json req) ;;
  messages <- lift (js_get payload "messages") ;;
  model <- lift (js_get payload "model") ;;
  let controller := ChatController.constructor env in
  stream <- ChatController.generateResponse controller messages model ;;
  Ret {| stream := stream |}.

(** ** [src/components/AIChatbot.tsx]: the initial selection *)

Module AIChatbot.

Definition aiModel (env : Env) : list AiModel :=
  ChatController.getAvailableModels (ChatController.constructor env).

(** [aiModel[0]]: [undefined] past the end of the array. *)
Definition first_entry (env : Env) : option AiModel := nth_error (aiModel env) 0.

(** [aiModel[0].id], the initial value of [selectedModel]; reading [.id]
    of [undefined] throws. *)
Definition initialSelectedModel (env : Env) : Outcome string :=
  match first_entry env with
  | Some m => Fulfilled (id m)
  | None => Rejected TypeError
  end.

End AIChatbot.

(** ** Shapes and names used in the statements *)

(** The prompt format in the words of the specification: ["{role}:
    {content}"] for every message, joined by line feeds, then the cue. *)
Definition spec_prompt (ms : list Message) : string :=
  String.concat LF (map (fun m => role_string (role m) ++ ": " ++ content m) ms)
  ++ LF ++ "assistant:".

Definition is_role_content_message (v : JsValue) : bool :=
  match v with
  | JObj props =>
      match lookup_prop "role" props, lookup_prop "content" props with
      | JStr r, JStr _ => String.eqb r "user" || String.eqb r "assistant"
      | _, _ => false
      end
  | _ => false
  end.

(** The [messages] field of a payload is a list ... *)
Definition messages_is_list (payload : JsValue) : bool :=
  match js_get payload "messages" with
  | Fulfilled (JArr _) => true
  | _ => false
  end.

(** ... of role/content messages. *)
Definition messages_well_shaped (payload : JsValue) : bool :=
  match js_get payload "messages" with
  | Fulfilled (JArr elems) => forallb is_role_content_message elems
  | _ => false
  end.

Definition is_object (v : JsValue) : bool :=
  match v with
  | JObj _ => true
  | _ => false
  end.

Definition is_network_failure (e : JsError) : bool :=
  match e with
  | NetworkFailure _ => true
  | _ => false
  end.

(** The environment variable that holds each provider's credential. *)
Definition credential_variable (p : Provider) : string :=
  match p with
  | OpenAI => "OPEN_API_KEY"
  | Anthropic => "ANTHROPIC_API_KEY"
  end.

(** The branch [generateResponse] takes for a model id. *)
Definition selected_provider (model : string) : Provider :=
  if startsWith model "claude" then Anthropic else OpenAI.

(** The two requests, named for the statements below. *)
Definition complete_call (self : ChatModel.t) (prompt : string) (model : JsValue)
  : UpstreamCall :=
  Fetch "https://api.anthropic.com/v1/complete"
    {| method := "POST";
       headers := [("Content-Type", "application/json");
                   ("X-API-Key", ChatModel.anthropicApiKey self)];
       fetch_body := {| prompt := prompt;
                        cb_model := model;
                        max_tokens_to_sample := 1000;
                        cb_stream := true |} |}.

Definition chat_call (self : ChatModel.t) (model : JsValue) (wire : list WireMessage)
  : UpstreamCall :=
  CreateChatCompletion (ChatModel.openai self)
    {| cc_model := js_or model (JStr "gpt-3.5-turbo");
       cc_stream := true;
       cc_messages := wire |}.

Definition wire_of_message (m : Message) : WireMessage :=
  {| wm_content := JStr (content m); wm_role := JStr (role_string (role m)) |}.

Definition raw_line : string := "${m.role}: ${m.content}".

(** The prompt the provider-B branch builds for a conversation. *)
Definition prompt_as_built (ms : list Message) : string :=
  String.concat LF (map (fun _ => raw_line) ms) ++ LF ++ "assistant:".

(** Sample inputs. *)
Definition Hello : Message := {| role := user; content := "Hello" |}.
Definition no_env : Env := fun _ => None.
Definition up_ok (chunks : ReadableStream) : Upstream :=
  fun _ => Fulfilled {| status := 200; body := Some chunks |}.
Definition up_status (code : Z) (chunks : ReadableStream) : Upstream :=
  fun _ => Fulfilled {| status := code; body := Some chunks |}.
Definition up_down : Upstream := fun _ => Rejected (NetworkFailure "connect").

(** ** More names for the statements *)

(** The [stream] flag an upstream call carries. *)
Definition streaming (c : UpstreamCall) : bool :=
  match c with
  | Fetch _ init => cb_stream (fetch_body init)
  | CreateChatCompletion _ request => cc_stream request
  end.

Definition is_nullish (v : JsValue) : bool :=
  match v with
  | JUndefined | JNull => true
  | _ => false
  end.

(** What [v.key] reads from a value that is neither [undefined] nor
    [null]. *)
Definition prop_of (v : JsValue) (key : string) : JsValue :=
  match v with
  | JObj props => lookup_prop key props
  | _ => JUndefined
  end.

Definition wire_of_value (v : JsValue) : WireMessage :=
  {| wm_content := prop_of v "content"; wm_role := prop_of v "role" |}.

(** The call a run of [generateResponse] issues, when it issues one. *)
Inductive Issued (self : ChatModel.t) (messages model : JsValue) : UpstreamCall -> Prop :=
| IssuedComplete (s : string) (elems : list JsValue) :
    model = JStr s -> startsWith s "claude" = true -> messages = JArr elems ->
    Issued self messages model
      (complete_call self
         (String.concat LF (map (fun _ => raw_line) elems) ++ LF ++ "assistant:") (JStr s))
| IssuedChat (s : string) (elems : list JsValue) :
    model = JStr s -> startsWith s "claude" = false -> messages = JArr elems ->
    existsb is_nullish elems = false ->
    Issued self messages model (chat_call self (JStr s) (map wire_of_value elems)).

(** ** [src/components/AIChatbot.tsx]: the model selector *)

Module Selector.

(** The two pieces of state the component keeps with [useState]. *)
Record State : Type := {
  selectedModel : string;
  isDropdownOpen : bool
}.

(** [useState(aiModel[0].id)] and [useState(false)]. *)
Definition initialState (env : Env) : Outcome State :=
  first <-! AIChatbot.initialSelectedModel env ;;
  Fulfilled {| selectedModel := first; isDropdownOpen := false |}.

(** The header button: [setIsDropdownOpen(!isDropdownOpen)]. *)
Definition toggleDropdown (s : State) : State :=
  {| selectedModel := selectedModel s; isDropdownOpen := negb (isDropdownOpen s) |}.

(** An entry of the list: [setSelectedModel(model.id)] and
    [setIsDropdownOpen(false)]. *)
Definition selectItem (model : AiModel) (s : State) : State :=
  {| selectedModel := id model; isDropdownOpen := false |}.

(** A DOM node, and [dropdownRef.current]: [null] until the element is
    mounted, then an element that answers [contains(node)]. *)
Definition Node : Type := nat.
Definition Ref : Type := option (Node -> bool).

(** [handleClickOutside], the document's [mousedown] listener. *)
Definition handleClickOutside (current : Ref) (target : Node) (s : State) : State :=
  match current with
  | Some contains =>
      if negb (contains target)
      then {| selectedModel := selectedModel s; isDropdownOpen := false |}
      else s
  | None => s
  end.

(** The entries on screen: [isDropdownOpen && aiModel.map(...)]. *)
Definition items (env : Env) (s : State) : list AiModel :=
  if isDropdownOpen s then AIChatbot.aiModel env else [].

(** The header label: [aiModel.find(model => model.id === selectedModel)?.name]. *)
Definition selectedName (env : Env) (s : State) : option string :=
  option_map (@name)
    (find (fun model => String.eqb (id model) (selectedModel s)) (AIChatbot.aiModel env)).

(** What the user can do: press the header button, press the entry at some
    position of the list on screen, or press a mouse button somewhere. *)
Inductive Event : Type :=
| ButtonClick
| ItemClick (index : nat)
| MouseDown (current : Ref) (target : Node).

Definition handle (env : Env) (s : State) (e : Event) : State :=
  match e with
  | ButtonClick => toggleDropdown s
  | ItemClick index =>
      match nth_error (items env s) index with
      | Some model => selectItem model s
      | None => s
      end
  | MouseDown current target => handleClickOutside current target s
  end.

Definition after (env : Env) (events : list Event) (s : State) : State :=
  fold_left (handle env) events s.

End Selector.

(** The selected id is one the catalog offers. *)
Definition offered (env : Env) (s : Selector.State) : Prop :=
  exists m, In m (AIChatbot.aiModel env) /\ id m = Selector.selectedModel s.

(** ** [src/components/AIChatbot.tsx]: the message list *)

Module MessageList.

(** The [className] of the row of a message, with the template literal as
    it stands in the source. *)
Definition rowClassName (message : JsValue) : Outcome string :=
  eval_template "message" message (template "max-w-3/4 \${
                message.role === 'user' ? 'ml-auto' : 'mr-auto'
              }").

(** The [className] of the bubble inside the row. *)
Definition bubbleClassName (message : JsValue) : Outcome string :=
  eval_template "message" message (template "p-3 rounded-lg \${
                  message.role === 'user'
                    ? 'bg-indigo-600 text-white'
                    : 'bg-gray-700 text-gray-100'
                }").

End MessageList.

(** * Properties *)

(** ** Strings and lists *)

Lemma startsWith_spec (s p : string) :
  startsWith s p = true <-> exists rest, s = p ++ rest.
Proof.
  unfold startsWith. revert s.
  induction p as [|a p IH]; intros s; simpl.
  - split; [intros _; exists s; reflexivity | intros _; now destruct s].
  - destruct s as [|b s]; simpl.
    + split; [discriminate | intros [rest H]; discriminate].
    + destruct (ascii_dec a b) as [->|Hne].
      * rewrite IH. split; intros [rest H]; exists rest.
        -- now rewrite H.
        -- now inversion H.
      * split; [discriminate | intros [rest H]; inversion H; congruence].
Qed.

Lemma startsWith_false (s p : string) :
  startsWith s p = false <-> ~ exists rest, s = p ++ rest.
Proof.
  rewrite <- startsWith_spec. destruct (startsWith s p); split; intuition congruence.
Qed.

Lemma outcome_mapM_total {A B} (g : A -> B) (f : A -> Outcome B) (l : list A) :
  (forall x, In x l -> f x = Fulfilled (g x)) ->
  outcome_mapM f l = Fulfilled (map g l).
Proof.
  induction l as [|x l IH]; intros H; simpl.
  - reflexivity.
  - rewrite (H x (or_introl eq_refl)), IH; [reflexivity|].
    intros y Hy. apply H. now right.
Qed.

Lemma outcome_mapM_map {A B C} (h : A -> B) (f : B -> Outcome C) (l : list A) :
  outcome_mapM f (map h l) = outcome_mapM (fun x => f (h x)) l.
Proof.
  induction l as [|x l IH]; simpl; [reflexivity | now rewrite IH].
Qed.

(** ** Running the two branches *)

Lemma run_await_ret {A} (up : Upstream) (c : UpstreamCall) (f : Response -> A) :
  run up (r <- ChatModel.await c ;; Ret (f r)) = ([c], outcome_map f (up c)).
Proof.
  simpl. destruct (up c); reflexivity.
Qed.

Lemma prompt_line_constant (m : JsValue) :
  ChatModel.prompt_line m = Fulfilled raw_line.
Proof. reflexivity. Qed.

Lemma prompt_of_list (elems : list JsValue) :
  ChatModel.prompt_of (JArr elems) =
  Fulfilled (String.concat LF (map (fun _ => raw_line) elems) ++ LF ++ "assistant:").
Proof.
  unfold ChatModel.prompt_of, js_map.
  rewrite (outcome_mapM_total (fun _ => raw_line)); [reflexivity|].
  intros m _. apply prompt_line_constant.
Qed.

Lemma wire_message_typed (m : Message) :
  ChatModel.wire_message (js_of_message m) = Fulfilled (wire_of_message m).
Proof. reflexivity. Qed.

Lemma wire_conversation (ms : list Message) :
  js_map ChatModel.wire_message (js_of_conversation ms) =
  Fulfilled (map wire_of_message ms).
Proof.
  unfold js_of_conversation, js_map. rewrite outcome_mapM_map.
  apply outcome_mapM_total. intros m _. apply wire_message_typed.
Qed.

Lemma run_claude (up : Upstream) (self : ChatModel.t) (elems : list JsValue) (s : string) :
  startsWith s "claude" = true ->
  run up (ChatModel.generateResponse self (JArr elems) (JStr s)) =
  let c := complete_call self
             (String.concat LF (map (fun _ => raw_line) elems) ++ LF ++ "assistant:")
             (JStr s) in
  ([c], outcome_map (@body) (up c)).
Proof.
  intros H. unfold ChatModel.generateResponse.
  cbn [js_startsWith lift bind]. rewrite H.
  rewrite prompt_of_list. cbn [lift bind].
  apply (run_await_ret up _ (@body)).
Qed.

Lemma run_other (up : Upstream) (self : ChatModel.t) (messages : JsValue)
  (wire : list WireMessage) (s : string) :
  startsWith s "claude" = false ->
  js_map ChatModel.wire_message messages = Fulfilled wire ->
  run up (ChatModel.generateResponse self messages (JStr s)) =
  let c := chat_call self (JStr s) wire in
  ([c], outcome_map (@body) (up c)).
Proof.
  intros H Hw. unfold ChatModel.generateResponse.
  cbn [js_startsWith lift bind]. rewrite H, Hw. cbn [lift bind].
  apply (run_await_ret up _ (@body)).
Qed.

Lemma run_not_a_string (up : Upstream) (self : ChatModel.t) (messages model : JsValue) :
  (forall s, model <> JStr s) ->
  run up (ChatModel.generateResponse self messages model) = ([], Rejected TypeError).
Proof.
  intros H. destruct model; try reflexivity. now elim (H s).
Qed.

Lemma run_not_a_list (up : Upstream) (self : ChatModel.t) (messages model : JsValue) :
  (forall elems, messages <> JArr elems) ->
  run up (ChatModel.generateResponse self messages model) = ([], Rejected TypeError).
Proof.
  intros H. destruct model; try reflexivity.
  unfold ChatModel.generateResponse. cbn [js_startsWith lift bind].
  destruct (startsWith s "claude");
    destruct messages; try reflexivity; now elim (H elems).
Qed.

Lemma run_bind {A B} (up : Upstream) (p : Prog A) (f : A -> Prog B) :
  run up (bind p f) =
  match run up p with
  | (c1, Fulfilled a) => let (c2, o) := run up (f a) in ((c1 ++ c2)%list, o)
  | (c1, Rejected e) => (c1, Rejected e)
  end.
Proof.
  induction p as [a|e|c k IH]; simpl.
  - now destruct (run up (f a)).
  - reflexivity.
  - destruct (up c) as [r|e]; [|reflexivity].
    rewrite IH. destruct (run up (k r)) as [c1 [a|e]]; [|reflexivity].
    now destruct (run up (f a)).
Qed.

(** The handler validates nothing: once the body has parsed to something
    that has properties, it is the dispatcher that runs, on the two fields
    as they came. *)
Lemma run_POST (up : Upstream) (env : Env) (payload messages model : JsValue) :
  js_get payload "messages" = Fulfilled messages ->
  js_get payload "model" = Fulfilled model ->
  run up (POST env (parsed payload)) =
  let (c, o) := run up (ChatModel.generateResponse (ChatModel.constructor env) messages model) in
  (c, outcome_map (fun s => {| stream := s |}) o).
Proof.
  intros Hm Hd. unfold POST, parsed. cbn [json lift bind].
  rewrite Hm. cbn [lift bind]. rewrite Hd. cbn [lift bind].
  rewrite run_bind. unfold ChatController.generateResponse, ChatController.constructor.
  cbn [ChatController.model].
  destruct (run up _) as [c [a|e]]; simpl; [now rewrite app_nil_r | reflexivity].
Qed.

Lemma wire_objects (elems : list JsValue) :
  forallb is_object elems = true ->
  exists wire, js_map ChatModel.wire_message (JArr elems) = Fulfilled wire.
Proof.
  intros H.
  exists (map (fun v => match v with
                        | JObj props => {| wm_content := lookup_prop "content" props;
                                           wm_role := lookup_prop "role" props |}
                        | _ => {| wm_content := JUndefined; wm_role := JUndefined |}
                        end) elems).
  apply outcome_mapM_total. intros v Hv.
  rewrite forallb_forall in H. specialize (H v Hv).
  destruct v; try discriminate. reflexivity.
Qed.

Lemma append_empty_r (s : string) : s ++ "" = s.
Proof.
  induction s as [|c s IH]; simpl; [reflexivity | now rewrite IH].
Qed.

Lemma unescaped_parts :
  template "${m.role}: ${m.content}" =
  [Chars ""; Subst "m.role"; Chars ": "; Subst "m.content"; Chars ""].
Proof. vm_compute. reflexivity. Qed.

(** The unescaped template would have produced the lines the
    specification describes; the backslashes are the whole difference. *)
Lemma unescaped_template_lines (ms : list Message) :
  js_map (fun m => eval_template "m" m (template "${m.role}: ${m.content}"))
         (js_of_conversation ms) =
  Fulfilled (map (fun m => role_string (role m) ++ ": " ++ content m) ms).
Proof.
  unfold js_of_conversation, js_map. rewrite outcome_mapM_map.
  apply outcome_mapM_total. intros [r c] _.
  rewrite unescaped_parts. unfold js_of_message, eval_template.
  cbn [role content outcome_mapM eval_part].
  change (strip_prefix ("m" ++ ".") "m.role") with (Some "role").
  change (strip_prefix ("m" ++ ".") "m.content") with (Some "content").
  cbn [js_get lookup_prop].
  change ("role" =? "role") with true.
  change ("role" =? "content") with false.
  change ("content" =? "content") with true.
  cbn [outcome_bind js_toString String.concat].
  change ("" ++ "" ++ role_string r ++ "" ++ ": " ++ "" ++ c ++ "" ++ "")
    with (role_string r ++ ": " ++ c ++ "").
  now rewrite append_empty_r.
Qed.

(** How [generateResponse] runs on a well-typed conversation and a string
    model id: exactly one call, and the promise settles as the call does. *)
Lemma run_typed (up : Upstream) (self : ChatModel.t) (ms : list Message) (s : string) :
  exists call,
    run up (ChatModel.generateResponse self (js_of_conversation ms) (JStr s)) =
      ([call], outcome_map (@body) (up call)) /\
    call = (if startsWith s "claude"
            then complete_call self (prompt_as_built ms) (JStr s)
            else chat_call self (JStr s) (map wire_of_message ms)).
Proof.
  destruct (startsWith s "claude") eqn:E.
  - eexists. split; [|reflexivity].
    unfold js_of_conversation. rewrite run_claude by assumption.
    unfold prompt_as_built. now rewrite map_map.
  - eexists. split; [|reflexivity].
    apply run_other; [assumption | apply wire_conversation].
Qed.

(** ** The dispatcher *)

(** C1: a model id that starts with "claude" is sent to the provider-B
    (Anthropic) endpoint, every other id, the empty one included, to the
    provider-A (OpenAI) client; the id sent is "gpt-3.5-turbo" when the
    supplied id is empty and the supplied id itself otherwise. *)
Theorem generateResponse_dispatch
  (up : Upstream) (env : Env) (ms : list Message) (model : string) :
  exists call,
    calls up (ChatModel.generateResponse (ChatModel.constructor env)
                (js_of_conversation ms) (JStr model)) = [call] /\
    ((exists rest, model = "claude" ++ rest) -> provider_of call = Anthropic) /\
    ((~ exists rest, model = "claude" ++ rest) -> provider_of call = OpenAI) /\
    (model = "" -> provider_of call = OpenAI /\ model_of call = JStr "gpt-3.5-turbo") /\
    (model <> "" -> model_of call = JStr model).
Proof.
  destruct (run_typed up (ChatModel.constructor env) ms model) as (call & Hrun & Hcall).
  exists call. split; [unfold calls; now rewrite Hrun|].
  destruct (startsWith model "claude") eqn:E; subst call.
  - repeat split.
    + intros Hno. apply startsWith_false in Hno. congruence.
    + subst model. discriminate E.
    + subst model. discriminate E.
  - repeat split.
    + intros Hyes. apply startsWith_spec in Hyes. congruence.
    + subst model. reflexivity.
    + intros Hne. cbn [model_of chat_call cc_model]. unfold js_or, js_truthy.
      destruct (String.eqb_spec model ""); [contradiction | reflexivity].
Qed.

Lemma generateResponse_dispatch_witness :
  (exists call,
     calls up_down (ChatModel.generateResponse (ChatModel.constructor no_env)
                      (js_of_conversation [Hello]) (JStr "claude-v1")) = [call] /\
     provider_of call = Anthropic /\ model_of call = JStr "claude-v1") /\
  (exists call,
     calls up_down (ChatModel.generateResponse (ChatModel.constructor no_env)
                      (js_of_conversation [Hello]) (JStr "")) = [call] /\
     provider_of call = OpenAI /\ model_of call = JStr "gpt-3.5-turbo").
Proof.
  split.
  - destruct (generateResponse_dispatch up_down no_env [Hello] "claude-v1")
      as (call & Hc & Hyes & _ & _ & Hkeep).
    exists call. repeat split.
    + exact Hc.
    + apply Hyes. exists "-v1". reflexivity.
    + apply Hkeep. discriminate.
  - destruct (generateResponse_dispatch up_down no_env [Hello] "")
      as (call & Hc & _ & _ & Hempty & _).
    exists call. split; [exact Hc | apply Hempty; reflexivity].
Defined.

(** C2: on the conversation [{role:"user",content:"hi"}] the provider-B
    branch sends the prompt "${m.role}: ${m.content}\nassistant:": the two
    substitutions are escaped in the source and are never performed, so the
    prompt is not the "user: hi\nassistant:" the specification describes. *)
Theorem prompt_is_not_interpolated (up : Upstream) (env : Env) :
  let hi := {| role := user; content := "hi" |} in
  exists url init,
    calls up (ChatModel.generateResponse (ChatModel.constructor env)
                (js_of_conversation [hi]) (JStr "claude-v1")) = [Fetch url init] /\
    prompt (fetch_body init) = "${m.role}: ${m.content}" ++ LF ++ "assistant:" /\
    spec_prompt [hi] = "user: hi" ++ LF ++ "assistant:" /\
    prompt (fetch_body init) <> spec_prompt [hi].
Proof.
  intros hi.
  destruct (run_typed up (ChatModel.constructor env) [hi] "claude-v1") as (call & Hrun & Hcall).
  change (startsWith "claude-v1" "claude") with true in Hcall. subst call.
  do 2 eexists. split; [unfold calls; rewrite Hrun; reflexivity|].
  repeat split. discriminate.
Qed.

(** C4, as the code has it: the status of the response is never looked at.
    Whenever the upstream call resolves with a response, of a success status
    or not, the promise is fulfilled with that response's body; it is
    rejected only when the upstream call itself rejects, with that same
    error.  Exactly one call is made either way. *)
Theorem generateResponse_relays_any_response
  (up : Upstream) (env : Env) (ms : list Message) (model : string) :
  let p := ChatModel.generateResponse (ChatModel.constructor env)
             (js_of_conversation ms) (JStr model) in
  exists call,
    calls up p = [call] /\
    (forall r, up call = Fulfilled r -> result up p = Fulfilled (body r)) /\
    (forall e, up call = Rejected e -> result up p = Rejected e).
Proof.
  intros p.
  destruct (run_typed up (ChatModel.constructor env) ms model) as (call & Hrun & _).
  exists call. unfold calls, result, p. rewrite Hrun. cbn [fst snd].
  repeat split; intros x Hx; now rewrite Hx.
Qed.

Lemma generateResponse_relays_any_response_witness :
  result (up_status 500 ["overloaded"])
    (ChatModel.generateResponse (ChatModel.constructor no_env)
       (js_of_conversation [Hello]) (JStr "gpt-4")) = Fulfilled (Some ["overloaded"]) /\
  result up_down
    (ChatModel.generateResponse (ChatModel.constructor no_env)
       (js_of_conversation [Hello]) (JStr "gpt-4")) = Rejected (NetworkFailure "connect").
Proof.
  split.
  - destruct (generateResponse_relays_any_response (up_status 500 ["overloaded"])
                no_env [Hello] "gpt-4") as (call & _ & Hok & _).
    apply (Hok {| status := 500; body := Some ["overloaded"] |}). reflexivity.
  - destruct (generateResponse_relays_any_response up_down no_env [Hello] "gpt-4")
      as (call & _ & _ & Hfail).
    apply Hfail. reflexivity.
Defined.

(** C4, as stated, fails: the upstream answers 401 and the caller is handed
    the body of that answer as the stream, not an error. *)
Lemma error_status_still_returns_stream :
  let p := ChatModel.generateResponse (ChatModel.constructor no_env)
             (js_of_conversation [Hello]) (JStr "claude-v1") in
  let up := up_status 401 ["denied"] in
  (exists call r, calls up p = [call] /\ up call = Fulfilled r /\ ok r = false) /\
  result up p = Fulfilled (Some ["denied"]) /\
  ~ (exists e, result up p = Rejected e /\ is_network_failure e = false).
Proof.
  cbv zeta. repeat split.
  - do 2 eexists. repeat split.
  - intros (e & He & _). discriminate He.
Qed.

(** C6: when the environment variable holding the selected provider's
    credential is unset or empty, the request is issued all the same, to
    that provider and with the missing or empty credential, and the promise
    settles exactly as the upstream answers: nothing fails locally. *)
Theorem missing_credential_is_passed_through
  (up : Upstream) (env : Env) (ms : list Message) (model : string) :
  let p := ChatModel.generateResponse (ChatModel.constructor env)
             (js_of_conversation ms) (JStr model) in
  env (credential_variable (selected_provider model)) = None \/
  env (credential_variable (selected_provider model)) = Some "" ->
  exists call,
    calls up p = [call] /\
    provider_of call = selected_provider model /\
    (credential_of call = None \/ credential_of call = Some "") /\
    result up p = outcome_map (@body) (up call).
Proof.
  intros p Hcred.
  destruct (run_typed up (ChatModel.constructor env) ms model) as (call & Hrun & Hcall).
  exists call. unfold calls, result, p. rewrite Hrun. cbn [fst snd].
  unfold selected_provider in *.
  destruct (startsWith model "claude"); subst call; repeat split.
  - right. cbn. unfold env_or_empty. cbn in Hcred.
    destruct Hcred as [-> | ->]; reflexivity.
  - exact Hcred.
Qed.

Lemma missing_credential_is_passed_through_witness :
  exists call,
    calls up_down (ChatModel.generateResponse (ChatModel.constructor no_env)
                     (js_of_conversation [Hello]) (JStr "claude-v1")) = [call] /\
    provider_of call = Anthropic /\
    (credential_of call = None \/ credential_of call = Some "") /\
    result up_down (ChatModel.generateResponse (ChatModel.constructor no_env)
                      (js_of_conversation [Hello]) (JStr "claude-v1"))
      = outcome_map (@body) (up_down call).
Proof.
  apply (missing_credential_is_passed_through up_down no_env [Hello] "claude-v1").
  left. reflexivity.
Defined.

(** C10: for a model id that does not start with "claude", the [messages]
    of the request are the conversation, element for element: as many, in
    the same order, each with the role and the content of the message at the
    same index. *)
Theorem chat_messages_are_the_conversation
  (up : Upstream) (env : Env) (ms : list Message) (model : string) :
  (~ exists rest, model = "claude" ++ rest) ->
  exists config request,
    calls up (ChatModel.generateResponse (ChatModel.constructor env)
                (js_of_conversation ms) (JStr model))
      = [CreateChatCompletion config request] /\
    length (cc_messages request) = length ms /\
    (forall i m, nth_error ms i = Some m ->
       nth_error (cc_messages request) i =
         Some {| wm_content := JStr (content m);
                 wm_role := JStr (role_string (role m)) |}) /\
    (forall i, nth_error ms i = None -> nth_error (cc_messages request) i = None).
Proof.
  intros Hno. apply startsWith_false in Hno.
  destruct (run_typed up (ChatModel.constructor env) ms model) as (call & Hrun & Hcall).
  rewrite Hno in Hcall. subst call.
  do 2 eexists. split; [unfold calls; rewrite Hrun; reflexivity|].
  cbn [cc_messages]. repeat split.
  - apply length_map.
  - intros i m Hi. now rewrite nth_error_map, Hi.
  - intros i Hi. now rewrite nth_error_map, Hi.
Qed.

Lemma chat_messages_are_the_conversation_witness :
  exists config request,
    calls up_down (ChatModel.generateResponse (ChatModel.constructor no_env)
                     (js_of_conversation [Hello]) (JStr "gpt-4"))
      = [CreateChatCompletion config request] /\
    length (cc_messages request) = 1 /\
    (forall i m, nth_error [Hello] i = Some m ->
       nth_error (cc_messages request) i =
         Some {| wm_content := JStr (content m);
                 wm_role := JStr (role_string (role m)) |}) /\
    (forall i, nth_error [Hello] i = None -> nth_error (cc_messages request) i = None).
Proof.
  apply (chat_messages_are_the_conversation up_down no_env [Hello] (model := "gpt-4")).
  intros [rest H]. discriminate H.
Defined.

(** ** The transport boundary *)

(** C3, as the code has it: the handler checks nothing and starts the
    dispatcher on whatever the payload holds.  When the [messages] field is
    missing or is not a list, no upstream call is made and the request fails
    with a [TypeError]; when it is a list of objects, whatever their
    properties, and the model is a string, the upstream call is made. *)
Theorem POST_checks_no_shape (up : Upstream) (env : Env) (payload : JsValue) :
  (messages_is_list payload = false ->
   run up (POST env (parsed payload)) = ([], Rejected TypeError)) /\
  (forall elems s,
     js_get payload "messages" = Fulfilled (JArr elems) ->
     js_get payload "model" = Fulfilled (JStr s) ->
     forallb is_object elems = true ->
     exists call,
       run up (POST env (parsed payload)) =
         ([call], outcome_map (fun r => {| stream := body r |}) (up call))).
Proof.
  split.
  - unfold messages_is_list. intros H.
    destruct (js_get payload "messages") as [messages|e] eqn:Hm.
    + assert (Hd : exists model, js_get payload "model" = Fulfilled model)
        by (destruct payload; try discriminate Hm; eexists; reflexivity).
      destruct Hd as [model Hd].
      rewrite (@run_POST up env _ _ _ Hm Hd).
      rewrite run_not_a_list; [reflexivity|].
      intros elems ->. discriminate H.
    + destruct payload; try discriminate Hm; reflexivity.
  - intros elems s Hm Hd Hobj.
    rewrite (@run_POST up env _ _ _ Hm Hd).
    destruct (startsWith s "claude") eqn:E.
    + rewrite run_claude by assumption. cbv zeta.
      eexists. f_equal. destruct (up _); reflexivity.
    + destruct (wire_objects elems Hobj) as [wire Hw].
      rewrite (@run_other up _ _ _ _ E Hw). cbv zeta.
      eexists. f_equal. destruct (up _); reflexivity.
Qed.

Lemma POST_checks_no_shape_witness :
  run (up_ok ["Hi"])
    (POST no_env (parsed (JObj [("model", JStr "gpt-4")]))) = ([], Rejected TypeError) /\
  run (up_ok ["Hi"])
    (POST no_env (parsed (JObj [("messages", JStr "Hello"); ("model", JStr "gpt-4")])))
    = ([], Rejected TypeError) /\
  exists call,
    run (up_ok ["Hi"])
      (POST no_env (parsed (JObj [("messages", JArr [JObj [("text", JStr "Hello")]]);
                                  ("model", JStr "gpt-4")])))
    = ([call], outcome_map (fun r => {| stream := body r |}) (up_ok ["Hi"] call)).
Proof.
  split; [|split].
  - apply (POST_checks_no_shape (up_ok ["Hi"]) no_env (JObj [("model", JStr "gpt-4")])).
    reflexivity.
  - apply (POST_checks_no_shape (up_ok ["Hi"]) no_env
             (JObj [("messages", JStr "Hello"); ("model", JStr "gpt-4")])).
    reflexivity.
  - apply (proj2 (POST_checks_no_shape (up_ok ["Hi"]) no_env
             (JObj [("messages", JArr [JObj [("text", JStr "Hello")]]);
                    ("model", JStr "gpt-4")]))
             [JObj [("text", JStr "Hello")]] "gpt-4"); reflexivity.
Defined.

(** C3, as stated, fails: a payload whose [messages] is a list, but not of
    role/content messages, is not rejected; the dispatcher runs, the
    upstream call is made and the handler answers with the stream. *)
Lemma ill_shaped_messages_reach_upstream :
  let payload := JObj [("messages", JArr [JObj [("text", JStr "Hello")]]);
                       ("model", JStr "gpt-4")] in
  messages_well_shaped payload = false /\
  run (up_ok ["Hi"]) (POST no_env (parsed payload)) =
    ([CreateChatCompletion {| apiKey := None |}
        {| cc_model := JStr "gpt-4";
           cc_stream := true;
           cc_messages := [{| wm_content := JUndefined; wm_role := JUndefined |}] |}],
     Fulfilled {| stream := Some ["Hi"] |}) /\
  calls (up_ok ["Hi"]) (POST no_env (parsed payload)) <> [].
Proof.
  cbv zeta. repeat split. discriminate.
Qed.

(** C5: a payload that has no [model] field makes the handler fail with a
    [TypeError] before any upstream call: [startsWith] is called on
    [undefined] ahead of the [|| 'gpt-3.5-turbo'] default, so no default
    model is substituted and provider A is not reached. *)
Theorem absent_model_is_not_defaulted
  (up : Upstream) (env : Env) (props : list (string * JsValue)) :
  lookup_prop "model" props = JUndefined ->
  run up (POST env (parsed (JObj props))) = ([], Rejected TypeError).
Proof.
  intros H.
  rewrite (@run_POST up env (JObj props) _ _ eq_refl eq_refl).
  rewrite H. now rewrite run_not_a_string.
Qed.

Lemma absent_model_is_not_defaulted_witness :
  run (up_ok ["Hi"])
    (POST no_env (parsed (JObj [("messages", js_of_conversation [Hello])])))
  = ([], Rejected TypeError).
Proof.
  apply (absent_model_is_not_defaulted (up_ok ["Hi"]) no_env
           [("messages", js_of_conversation [Hello])]).
  reflexivity.
Defined.

(** ** The model registry *)

(** C7: the initial selection reads the first entry of the catalog of
    [getAvailableModels]; the catalog is not empty, so the read succeeds,
    and the entry is the descriptor with id "gpt-3.5-turbo". *)
Theorem default_model_is_first_entry (env : Env) :
  AIChatbot.first_entry env =
    hd_error (ChatModel.getAvailableModels (ChatModel.constructor env)) /\
  ChatModel.getAvailableModels (ChatModel.constructor env) <> [] /\
  AIChatbot.first_entry env = Some {| id := "gpt-3.5-turbo"; name := "GPT 3.5 Turbo" |} /\
  AIChatbot.initialSelectedModel env = Fulfilled "gpt-3.5-turbo".
Proof.
  repeat split. discriminate.
Qed.

(** C8: [getAvailableModels] takes no input and reads nothing: on every
    instance, however configured, and through the controller as well, it
    returns the same six descriptors in the same order. *)
Theorem getAvailableModels_is_fixed (self self' : ChatModel.t) (env : Env) :
  ChatModel.getAvailableModels self = ChatModel.getAvailableModels self' /\
  ChatController.getAvailableModels (ChatController.constructor env) =
    ChatModel.getAvailableModels self /\
  ChatModel.getAvailableModels self =
    [ {| id := "gpt-3.5-turbo"; name := "GPT 3.5 Turbo" |};
      {| id := "gpt-4"; name := "GPT-4" |};
      {| id := "claude-v1"; name := "Claude v1" |};
      {| id := "claude-instant-v1"; name := "Claude Instant v1" |};
      {| id := "text-davinci-003"; name := "Davinci" |};
      {| id := "text-curie-001"; name := "Curie" |} ].
Proof.
  repeat split.
Qed.

(** C9: the ids of the catalog are pairwise distinct. *)
Theorem catalog_ids_are_distinct (self : ChatModel.t) :
  NoDup (map (@id) (ChatModel.getAvailableModels self)).
Proof.
  cbn [ChatModel.getAvailableModels map id].
  repeat (constructor; [cbn [In]; intuition discriminate|]).
  constructor.
Qed.

(** * Further properties *)

(** ** The dispatcher on arbitrary run-time values *)

Lemma wire_message_value (v : JsValue) :
  ChatModel.wire_message v =
  if is_nullish v then Rejected TypeError else Fulfilled (wire_of_value v).
Proof. destruct v; reflexivity. Qed.

Lemma wire_elements (elems : list JsValue) :
  outcome_mapM ChatModel.wire_message elems =
  if existsb is_nullish elems then Rejected TypeError
  else Fulfilled (map wire_of_value elems).
Proof.
  induction elems as [|v elems IH]; [reflexivity|].
  cbn [outcome_mapM existsb map]. rewrite wire_message_value, IH.
  destruct (is_nullish v); [reflexivity|].
  now destruct (existsb is_nullish elems).
Qed.

Lemma map_constant {A B} (b : B) (l l' : list A) :
  length l = length l' -> map (fun _ => b) l = map (fun _ => b) l'.
Proof.
  revert l'. induction l as [|x l IH]; intros [|y l'] H; try discriminate; [reflexivity|].
  cbn [map]. f_equal. apply IH. now injection H.
Qed.

Lemma run_any (up : Upstream) (self : ChatModel.t) (messages model : JsValue) :
  run up (ChatModel.generateResponse self messages model) = ([], Rejected TypeError) \/
  exists call,
    Issued self messages model call /\
    run up (ChatModel.generateResponse self messages model) =
      ([call], outcome_map (@body) (up call)).
Proof.
  destruct model as [| | | |s| |]; try (left; reflexivity).
  destruct messages as [| | | | |elems|];
    try (left; apply run_not_a_list; intros elems; discriminate).
  destruct (startsWith s "claude") eqn:E.
  - right. eexists. split; [|apply run_claude; exact E].
    now apply IssuedComplete with (elems := elems).
  - destruct (existsb is_nullish elems) eqn:N.
    + left. unfold ChatModel.generateResponse.
      cbn [js_startsWith lift bind]. rewrite E. cbn [js_map].
      rewrite wire_elements, N. reflexivity.
    + right. eexists. split.
      * now apply IssuedChat with (elems := elems).
      * apply run_other; [exact E|]. cbn [js_map]. now rewrite wire_elements, N.
Qed.

Lemma run_POST_any (up : Upstream) (env : Env) (req : Request) :
  (exists e, run up (POST env req) = ([], Rejected e) /\
             (json req = Rejected e \/ e = TypeError)) \/
  exists payload messages model call,
    json req = Fulfilled payload /\
    js_get payload "messages" = Fulfilled messages /\
    js_get payload "model" = Fulfilled model /\
    Issued (ChatModel.constructor env) messages model call /\
    run up (POST env req) =
      ([call], outcome_map (fun r => {| stream := body r |}) (up call)).
Proof.
  destruct req as [[payload|e]].
  2:{ left. exists e. split; [reflexivity | now left]. }
  destruct (js_get payload "messages") as [messages|e] eqn:Hm.
  2:{ left. exists TypeError. split; [|now right].
      destruct payload; try discriminate Hm; reflexivity. }
  assert (Hd : exists model, js_get payload "model" = Fulfilled model)
    by (destruct payload; try discriminate Hm; eexists; reflexivity).
  destruct Hd as [model Hd].
  pose proof (@run_POST up env payload messages model Hm Hd) as HP.
  fold (parsed payload).
  destruct (run_any up (ChatModel.constructor env) messages model) as [H|(call & Hi & H)];
    rewrite H in HP.
  - left. exists TypeError. split; [exact HP | now right].
  - right. exists payload, messages, model, call. repeat split; try assumption.
    rewrite HP. f_equal. now destruct (up call).
Qed.

Lemma issued_facts (self : ChatModel.t) (messages model : JsValue) (call : UpstreamCall) :
  Issued self messages model call ->
  streaming call = true /\
  (exists s, model_of call = JStr s /\ s <> "" /\ provider_of call = selected_provider s) /\
  credential_of call =
    match provider_of call with
    | OpenAI => apiKey (ChatModel.openai self)
    | Anthropic => Some (ChatModel.anthropicApiKey self)
    end.
Proof.
  intros [s elems _ E _ | s elems _ E _ _].
  - repeat split. exists s. unfold selected_provider. rewrite E.
    repeat split. intros ->. discriminate E.
  - repeat split. cbn [model_of chat_call cc_model]. unfold js_or, js_truthy.
    destruct (String.eqb_spec s "") as [->|Hne].
    + exists "gpt-3.5-turbo". repeat split. discriminate.
    + exists s. unfold selected_provider. rewrite E. now repeat split.
Qed.

(** ** The handler, on any request *)

(** X1: whenever the handler answers, exactly one upstream call was made,
    the upstream resolved it with a response, and the stream of the answer
    is the body of that response, untouched. *)
Theorem POST_relays_the_upstream_body
  (up : Upstream) (env : Env) (req : Request) (answer : StreamingTextResponse) :
  result up (POST env req) = Fulfilled answer ->
  exists call r,
    calls up (POST env req) = [call] /\
    up call = Fulfilled r /\
    stream answer = body r.
Proof.
  unfold result, calls. intros H.
  destruct (run_POST_any up env req)
    as [(e & Hrun & _) | (payload & messages & model & call & _ & _ & _ & _ & Hrun)];
    rewrite Hrun in *; cbn [fst snd] in *; [discriminate H|].
  destruct (up call) as [r|e] eqn:Hup; [|discriminate H].
  exists call, r. split; [reflexivity|]. split; [exact Hup|].
  cbn in H. now injection H as <-.
Qed.

Lemma POST_relays_the_upstream_body_witness :
  exists call r,
    calls (up_ok ["Hel"; "lo"])
      (POST no_env (parsed (JObj [("messages", js_of_conversation [Hello]);
                                  ("model", JStr "gpt-4")]))) = [call] /\
    up_ok ["Hel"; "lo"] call = Fulfilled r /\
    Some ["Hel"; "lo"] = body r.
Proof.
  apply (@POST_relays_the_upstream_body (up_ok ["Hel"; "lo"]) no_env
           (parsed (JObj [("messages", js_of_conversation [Hello]);
                          ("model", JStr "gpt-4")]))
           {| stream := Some ["Hel"; "lo"] |}).
  reflexivity.
Defined.

(** X2: whenever the handler fails, either nothing was sent upstream and
    the error is the one [req.json()] rejected with or a [TypeError], or one
    call was sent, the upstream rejected it, and the error is the upstream's
    own.  Nothing is retried and no error is replaced by another. *)
Theorem POST_failure_origin
  (up : Upstream) (env : Env) (req : Request) (e : JsError) :
  result up (POST env req) = Rejected e ->
  (calls up (POST env req) = [] /\ (json req = Rejected e \/ e = TypeError)) \/
  (exists call, calls up (POST env req) = [call] /\ up call = Rejected e).
Proof.
  unfold result, calls. intros H.
  destruct (run_POST_any up env req)
    as [(e' & Hrun & Hwhy) | (payload & messages & model & call & _ & _ & _ & _ & Hrun)];
    rewrite Hrun in *; cbn [fst snd] in *.
  - left. injection H as <-. now split.
  - right. exists call. split; [reflexivity|].
    destruct (up call) as [r|e']; [discriminate H|]. cbn in H. now injection H as ->.
Qed.

Lemma POST_failure_origin_witness :
  (calls up_down (POST no_env {| json := Rejected SyntaxError |}) = [] /\
   (json {| json := Rejected SyntaxError |} = Rejected SyntaxError \/ SyntaxError = TypeError)) \/
  (exists call, calls up_down (POST no_env {| json := Rejected SyntaxError |}) = [call] /\
                up_down call = Rejected SyntaxError).
Proof.
  apply (@POST_failure_origin up_down no_env {| json := Rejected SyntaxError |} SyntaxError).
  reflexivity.
Defined.

(** X3: the handler never sends more than one request, and any request it
    sends asks for a streamed answer and names a model by a non-empty string;
    the provider addressed is the one that model id selects. *)
Theorem POST_sends_one_streaming_request
  (up : Upstream) (env : Env) (req : Request) (call : UpstreamCall) :
  In call (calls up (POST env req)) ->
  calls up (POST env req) = [call] /\
  streaming call = true /\
  exists s, model_of call = JStr s /\ s <> "" /\ provider_of call = selected_provider s.
Proof.
  unfold calls. intros H.
  destruct (run_POST_any up env req)
    as [(e & Hrun & _) | (payload & messages & model & c & _ & _ & _ & Hi & Hrun)];
    rewrite Hrun in *; cbn [fst] in *; [contradiction|].
  destruct H as [<-|[]].
  destruct (issued_facts Hi) as (Hs & Hm & _). now repeat split.
Qed.

Lemma POST_sends_one_streaming_request_witness :
  exists call,
    calls up_down (POST no_env (parsed (JObj [("messages", JArr []); ("model", JStr "")])))
      = [call] /\
    streaming call = true /\
    exists s, model_of call = JStr s /\ s <> "" /\ provider_of call = selected_provider s.
Proof.
  eexists.
  apply (@POST_sends_one_streaming_request up_down no_env
           (parsed (JObj [("messages", JArr []); ("model", JStr "")]))).
  left. reflexivity.
Defined.

(** X4: the credential a request carries is read from the environment and
    nowhere else: the value of [OPEN_API_KEY], or nothing when it is unset,
    on a provider-A request; the value of [ANTHROPIC_API_KEY], or the empty
    string when it is unset, on a provider-B request. *)
Theorem POST_credential_source
  (up : Upstream) (env : Env) (req : Request) (call : UpstreamCall) :
  In call (calls up (POST env req)) ->
  credential_of call =
    match provider_of call with
    | OpenAI => env "OPEN_API_KEY"
    | Anthropic => Some (env_or_empty env "ANTHROPIC_API_KEY")
    end.
Proof.
  unfold calls. intros H.
  destruct (run_POST_any up env req)
    as [(e & Hrun & _) | (payload & messages & model & c & _ & _ & _ & Hi & Hrun)];
    rewrite Hrun in *; cbn [fst] in *; [contradiction|].
  destruct H as [<-|[]].
  now destruct (issued_facts Hi) as (_ & _ & Hc).
Qed.

Lemma POST_credential_source_witness :
  exists call,
    calls up_down
      (POST (fun key => if String.eqb key "ANTHROPIC_API_KEY" then Some "sk-ant" else None)
         (parsed (JObj [("messages", js_of_conversation [Hello]);
                        ("model", JStr "claude-v1")]))) = [call] /\
    credential_of call = Some "sk-ant".
Proof.
  eexists. split; [reflexivity|].
  apply (@POST_credential_source up_down
           (fun key => if String.eqb key "ANTHROPIC_API_KEY" then Some "sk-ant" else None)
           (parsed (JObj [("messages", js_of_conversation [Hello]);
                          ("model", JStr "claude-v1")]))).
  left. reflexivity.
Defined.

(** X5: two environments that agree on [OPEN_API_KEY] and, up to unset
    against empty, on [ANTHROPIC_API_KEY] make the handler behave alike on
    every request: no other variable is read, [OPENAI_API_KEY] included. *)
Theorem POST_reads_two_variables
  (up : Upstream) (env env' : Env) (req : Request) :
  env "OPEN_API_KEY" = env' "OPEN_API_KEY" ->
  env_or_empty env "ANTHROPIC_API_KEY" = env_or_empty env' "ANTHROPIC_API_KEY" ->
  run up (POST env req) = run up (POST env' req).
Proof.
  intros Ha Hb.
  assert (Hc : ChatController.constructor env = ChatController.constructor env').
  { unfold ChatController.constructor, ChatModel.constructor. now rewrite Ha, Hb. }
  unfold POST. now rewrite Hc.
Qed.

Lemma POST_reads_two_variables_witness :
  run (up_ok ["Hi"])
    (POST (fun key => if String.eqb key "OPENAI_API_KEY" then Some "sk-123" else None)
       (parsed (JObj [("messages", js_of_conversation [Hello]); ("model", JStr "gpt-4")])))
  = run (up_ok ["Hi"])
      (POST no_env
         (parsed (JObj [("messages", js_of_conversation [Hello]); ("model", JStr "gpt-4")]))).
Proof.
  apply (@POST_reads_two_variables (up_ok ["Hi"])
           (fun key => if String.eqb key "OPENAI_API_KEY" then Some "sk-123" else None)
           no_env); reflexivity.
Defined.

(** ** The two branches, on any list *)

(** X6: in the provider-A branch every element of the list is read.  If one
    of them is [null] (or [undefined]) the call throws a [TypeError] and
    nothing is sent; otherwise one request is sent whose messages are, in
    order, the [content] and [role] properties of the elements and nothing
    else of them, [undefined] standing for a property that is not there. *)
Theorem provider_A_reads_every_element
  (up : Upstream) (self : ChatModel.t) (elems : list JsValue) (model : string) :
  (~ exists rest, model = "claude" ++ rest) ->
  (existsb is_nullish elems = true ->
   run up (ChatModel.generateResponse self (JArr elems) (JStr model))
     = ([], Rejected TypeError)) /\
  (existsb is_nullish elems = false ->
   exists config request,
     calls up (ChatModel.generateResponse self (JArr elems) (JStr model))
       = [CreateChatCompletion config request] /\
     cc_messages request =
       map (fun v => {| wm_content := prop_of v "content";
                        wm_role := prop_of v "role" |}) elems).
Proof.
  intros Hno. apply startsWith_false in Hno. split; intros N.
  - unfold ChatModel.generateResponse. cbn [js_startsWith lift bind].
    rewrite Hno. cbn [js_map]. now rewrite wire_elements, N.
  - do 2 eexists. unfold calls.
    rewrite (@run_other up self (JArr elems) (map wire_of_value elems) model Hno).
    + split; reflexivity.
    + cbn [js_map]. now rewrite wire_elements, N.
Qed.

Lemma provider_A_reads_every_element_witness :
  run (up_ok ["Hi"])
    (ChatModel.generateResponse (ChatModel.constructor no_env)
       (JArr [js_of_message Hello; JNull]) (JStr "gpt-4")) = ([], Rejected TypeError) /\
  exists config request,
    calls (up_ok ["Hi"])
      (ChatModel.generateResponse (ChatModel.constructor no_env)
         (JArr [JObj [("id", JStr "m1"); ("role", JStr "user"); ("content", JStr "Hello")];
                JNum 7]) (JStr "gpt-4"))
      = [CreateChatCompletion config request] /\
    cc_messages request =
      [ {| wm_content := JStr "Hello"; wm_role := JStr "user" |};
        {| wm_content := JUndefined; wm_role := JUndefined |} ].
Proof.
  assert (Hno : ~ exists rest, "gpt-4" = "claude" ++ rest)
    by (intros [rest H]; discriminate H).
  split.
  - apply (@provider_A_reads_every_element (up_ok ["Hi"]) (ChatModel.constructor no_env)
             [js_of_message Hello; JNull] "gpt-4" Hno).
    reflexivity.
  - apply (@provider_A_reads_every_element (up_ok ["Hi"]) (ChatModel.constructor no_env)
             [JObj [("id", JStr "m1"); ("role", JStr "user"); ("content", JStr "Hello")];
              JNum 7] "gpt-4" Hno).
    reflexivity.
Defined.

(** X7: in the provider-B branch no element of the list is read.  Two lists
    of the same length, whatever they hold, lead to the same request and the
    same outcome: the prompt carries the number of messages and none of
    their roles or contents. *)
Theorem provider_B_reads_no_element
  (up : Upstream) (self : ChatModel.t) (elems elems' : list JsValue) (model : string) :
  (exists rest, model = "claude" ++ rest) ->
  length elems = length elems' ->
  run up (ChatModel.generateResponse self (JArr elems) (JStr model)) =
  run up (ChatModel.generateResponse self (JArr elems') (JStr model)).
Proof.
  intros Hyes Hlen. apply startsWith_spec in Hyes.
  rewrite !run_claude by assumption.
  now rewrite (map_constant raw_line elems elems' Hlen).
Qed.

Lemma provider_B_reads_no_element_witness :
  run (up_ok ["Hi"])
    (ChatModel.generateResponse (ChatModel.constructor no_env)
       (JArr [js_of_message Hello]) (JStr "claude-v1")) =
  run (up_ok ["Hi"])
    (ChatModel.generateResponse (ChatModel.constructor no_env)
       (JArr [JNull]) (JStr "claude-v1")).
Proof.
  apply (@provider_B_reads_no_element (up_ok ["Hi"]) (ChatModel.constructor no_env)
           [js_of_message Hello] [JNull] "claude-v1").
  - exists "-v1". reflexivity.
  - reflexivity.
Defined.

(** ** The model selector *)

Lemma find_by_id (l : list AiModel) (m : AiModel) :
  NoDup (map (@id) l) -> In m l ->
  find (fun model => String.eqb (id model) (id m)) l = Some m.
Proof.
  induction l as [|x l IH]; intros Hnd Hin; [contradiction|].
  cbn [map] in Hnd. apply NoDup_cons_iff in Hnd. destruct Hnd as [Hx Hnd].
  cbn [find]. destruct (String.eqb_spec (id x) (id m)) as [E|E].
  - destruct Hin as [->|Hin]; [reflexivity|].
    elim Hx. rewrite E. now apply in_map.
  - destruct Hin as [->|Hin]; [congruence | now apply IH].
Qed.

Lemma catalog_NoDup (env : Env) : NoDup (map (@id) (AIChatbot.aiModel env)).
Proof.
  unfold AIChatbot.aiModel, ChatController.getAvailableModels.
  cbn [ChatModel.getAvailableModels map id].
  repeat (constructor; [cbn [In]; intuition discriminate|]).
  constructor.
Qed.

Lemma catalog_ids_not_empty (env : Env) (m : AiModel) :
  In m (AIChatbot.aiModel env) -> id m <> "".
Proof.
  unfold AIChatbot.aiModel, ChatController.getAvailableModels.
  cbn [ChatModel.getAvailableModels In].
  intros H. repeat (destruct H as [<-|H]; [discriminate|]). contradiction.
Qed.

Lemma handle_keeps_offered (env : Env) (s : Selector.State) (e : Selector.Event) :
  offered env s -> offered env (Selector.handle env s e).
Proof.
  intros H. destruct e as [|index|current target]; cbn [Selector.handle].
  - exact H.
  - destruct (nth_error (Selector.items env s) index) as [m|] eqn:Hn; [|exact H].
    exists m. split; [|reflexivity].
    apply nth_error_In in Hn. unfold Selector.items in Hn.
    now destruct (Selector.isDropdownOpen s).
  - unfold Selector.handleClickOutside.
    destruct current as [contains|]; [|exact H].
    now destruct (negb (contains target)).
Qed.

Lemma after_keeps_offered (env : Env) (events : list Selector.Event) (s : Selector.State) :
  offered env s -> offered env (Selector.after env events s).
Proof.
  revert s. induction events as [|e events IH]; intros s H; [exact H|].
  apply IH. now apply handle_keeps_offered.
Qed.

Lemma initial_offered (env : Env) :
  exists s0, Selector.initialState env = Fulfilled s0 /\ offered env s0.
Proof.
  eexists. split; [reflexivity|].
  eexists. split; [left; reflexivity | reflexivity].
Qed.

(** X8: whatever the user does, the selected model is one of the
    catalog's, and the header shows that entry's name: the label is never
    missing. *)
Theorem selection_stays_in_catalog (env : Env) (events : list Selector.Event) :
  exists s0,
    Selector.initialState env = Fulfilled s0 /\
    exists m,
      In m (AIChatbot.aiModel env) /\
      Selector.selectedModel (Selector.after env events s0) = id m /\
      Selector.selectedName env (Selector.after env events s0) = Some (name m).
Proof.
  destruct (initial_offered env) as (s0 & H0 & Hoff).
  exists s0. split; [exact H0|].
  destruct (@after_keeps_offered env events s0 Hoff) as (m & Hin & Hid).
  exists m. repeat split; [assumption | now symmetry |].
  unfold Selector.selectedName. rewrite <- Hid.
  now rewrite (@find_by_id (AIChatbot.aiModel env) m (catalog_NoDup env) Hin).
Qed.

(** X9: pressing the entry at position [index] of the open list selects
    the model at that position of the catalog, closes the list, and makes
    the header show that model's name; while the list is closed there is no
    entry to press and the state stays as it is. *)
Theorem item_click_selects_that_model
  (env : Env) (s : Selector.State) (index : nat) (m : AiModel) :
  nth_error (AIChatbot.aiModel env) index = Some m ->
  (Selector.isDropdownOpen s = true ->
   Selector.handle env s (Selector.ItemClick index) =
     {| Selector.selectedModel := id m; Selector.isDropdownOpen := false |} /\
   Selector.selectedName env (Selector.handle env s (Selector.ItemClick index)) =
     Some (name m)) /\
  (Selector.isDropdownOpen s = false ->
   Selector.handle env s (Selector.ItemClick index) = s).
Proof.
  intros Hn. split; intros Hopen;
    cbn [Selector.handle]; unfold Selector.items; rewrite Hopen.
  - rewrite Hn. split; [reflexivity|].
    unfold Selector.selectedName, Selector.selectItem. cbn [Selector.selectedModel].
    now rewrite (@find_by_id (AIChatbot.aiModel env) m (catalog_NoDup env)
                   (nth_error_In _ _ Hn)).
  - now destruct index.
Qed.

Lemma item_click_selects_that_model_witness :
  Selector.handle no_env
    {| Selector.selectedModel := "gpt-3.5-turbo"; Selector.isDropdownOpen := true |}
    (Selector.ItemClick 3)
  = {| Selector.selectedModel := "claude-instant-v1"; Selector.isDropdownOpen := false |} /\
  Selector.selectedName no_env
    (Selector.handle no_env
       {| Selector.selectedModel := "gpt-3.5-turbo"; Selector.isDropdownOpen := true |}
       (Selector.ItemClick 3))
  = Some "Claude Instant v1".
Proof.
  apply (@item_click_selects_that_model no_env
           {| Selector.selectedModel := "gpt-3.5-turbo"; Selector.isDropdownOpen := true |}
           3 {| id := "claude-instant-v1"; name := "Claude Instant v1" |});
    reflexivity.
Defined.

(** X10: whatever the user does, the dispatcher sends the selected model
    id itself: the id is never empty, so the "gpt-3.5-turbo" fallback never
    replaces a selection, and the provider is the one the id selects. *)
Theorem selection_is_sent_unchanged
  (up : Upstream) (env : Env) (events : list Selector.Event) (ms : list Message) :
  exists s0,
    Selector.initialState env = Fulfilled s0 /\
    exists call,
      calls up (ChatModel.generateResponse (ChatModel.constructor env)
                  (js_of_conversation ms)
                  (JStr (Selector.selectedModel (Selector.after env events s0)))) = [call] /\
      model_of call = JStr (Selector.selectedModel (Selector.after env events s0)) /\
      provider_of call =
        selected_provider (Selector.selectedModel (Selector.after env events s0)).
Proof.
  destruct (initial_offered env) as (s0 & H0 & Hoff).
  exists s0. split; [exact H0|].
  destruct (@after_keeps_offered env events s0 Hoff) as (m & Hin & Hid).
  pose proof (@catalog_ids_not_empty env m Hin) as Hne. rewrite Hid in Hne.
  set (sel := Selector.selectedModel (Selector.after env events s0)) in *.
  destruct (run_typed up (ChatModel.constructor env) ms sel) as (call & Hrun & Hcall).
  exists call. unfold calls. rewrite Hrun. split; [reflexivity|].
  unfold selected_provider. destruct (startsWith sel "claude"); subst call.
  - split; reflexivity.
  - split; [|reflexivity]. cbn [model_of chat_call cc_model]. unfold js_or, js_truthy.
    destruct (String.eqb_spec sel ""); [contradiction | reflexivity].
Qed.

Lemma other_events_keep_selection
  (env : Env) (events : list Selector.Event) (s : Selector.State) :
  Forall (fun e => match e with Selector.ItemClick _ => False | _ => True end) events ->
  Selector.selectedModel (Selector.after env events s) = Selector.selectedModel s.
Proof.
  revert s. induction events as [|e events IH]; intros s H; [reflexivity|].
  inversion H as [|e' events' He Hrest]; subst.
  unfold Selector.after in *. cbn [fold_left]. rewrite (IH _ Hrest).
  destruct e as [|index|current target]; [reflexivity | contradiction |].
  unfold Selector.handle, Selector.handleClickOutside.
  destruct current as [contains|]; [|reflexivity].
  now destruct (negb (contains target)).
Qed.

(** X11: the selection moves only through the entries of the list.  Until
    one is pressed, however often the header button and the mouse are, the
    selected model is the default "gpt-3.5-turbo". *)
Theorem default_kept_until_an_entry_is_pressed (env : Env) (events : list Selector.Event) :
  Forall (fun e => match e with Selector.ItemClick _ => False | _ => True end) events ->
  exists s0,
    Selector.initialState env = Fulfilled s0 /\
    Selector.selectedModel (Selector.after env events s0) = "gpt-3.5-turbo".
Proof.
  intros H. eexists. split; [reflexivity|].
  now rewrite (@other_events_keep_selection env events _ H).
Qed.

Lemma default_kept_until_an_entry_is_pressed_witness :
  exists s0,
    Selector.initialState no_env = Fulfilled s0 /\
    Selector.selectedModel
      (Selector.after no_env
         [Selector.ButtonClick; Selector.MouseDown (Some (fun _ => false)) 5;
          Selector.ButtonClick] s0) = "gpt-3.5-turbo".
Proof.
  apply (@default_kept_until_an_entry_is_pressed no_env
           [Selector.ButtonClick; Selector.MouseDown (Some (fun _ => false)) 5;
            Selector.ButtonClick]).
  repeat constructor.
Defined.

(** ** The message list *)

(** X12: the two [className]s of a message do not depend on the message:
    the substitutions that would tell a user's message from the assistant's
    are escaped in the source, so both kinds get the same classes, the text
    of the substitution included. *)
Theorem message_classes_ignore_the_role (message message' : JsValue) :
  MessageList.rowClassName message = MessageList.rowClassName message' /\
  MessageList.bubbleClassName message = MessageList.bubbleClassName message' /\
  exists row bubble,
    MessageList.rowClassName message = Fulfilled row /\
    MessageList.bubbleClassName message = Fulfilled bubble /\
    startsWith row "max-w-3/4 ${" = true /\
    startsWith bubble "p-3 rounded-lg ${" = true.
Proof.
  repeat split. do 2 eexists. repeat split.
Qed.

(** ** Which payloads reach the upstream *)


